(** * Mask R-CNN samples: the humanoids_pouring demo notebook and the
    tabletop command line, as a shallow embedding.

    The notebook [samples/humanoids_pouring/demo.ipynb] is a linear Python
    script; it is modelled as one computation in a state and exception
    monad whose state is [os.environ] and a trace of the calls it makes into
    the external libraries (Mask R-CNN, skimage, visualize).  Everything
    the notebook reads from outside (the file system, the index files of the
    dataset, the random generator) is a field of a [world] record. *)

From Stdlib Require Import ZArith Ascii String.
From stdpp Require Import base gmap strings list.

(** ** A fragment of the Python runtime *)

Inductive exc :=
  | AssertionError
  | IndexError
  | FileNotFoundError
  | OSError
  | StopIteration
  | AttributeError (name : string)
  | TypeError.

Inductive outcome (A : Type) :=
  | Ok (x : A)
  | Raise (e : exc).
Arguments Ok {A} x.
Arguments Raise {A} e.

(** Python values stored as configuration attributes.  A float literal
    such as [0.8] is kept as the decimal it is written as, [PyFloat 8 (-1)]. *)
Inductive pyval :=
  | PyStr (s : string)
  | PyInt (z : Z)
  | PyFloat (mant exp : Z)
  | PyBool (b : bool).

(** [xs[i]] on a Python list: negative indices count from the end, any
    other index out of range raises [IndexError]. *)
Definition py_index {A} (xs : list A) (i : Z) : outcome A :=
  let n := Z.of_nat (length xs) in
  let j := if (i <? 0)%Z then (i + n)%Z else i in
  if ((0 <=? j)%Z && (j <? n)%Z)%bool then
    match xs !! Z.to_nat j with
    | Some x => Ok x
    | None => Raise IndexError
    end
  else Raise IndexError.

(** [posixpath.join(a, b)]. *)
Definition path_join (a b : string) : string :=
  match b with
  | String "/" _ => b
  | _ =>
      if String.eqb a "" then b
      else match String.get (String.length a - 1) a with
           | Some "/"%char => a +:+ b
           | _ => a +:+ "/" +:+ b
           end
  end.

(** The state of the notebook's kernel as far as the notebook changes it. *)
Module Notebook.

(** An array read by [skimage.io.imread], named by the file it came from. *)
Record image := Image { img_src : string }.

(** A record of [Dataset.image_info]; the notebook only reads ['path']. *)
Record img_info := { info_path : string }.

Record dataset := { image_info : list img_info }.

(** An entry of the list returned by [model.detect]: the rois, masks,
    class_ids and scores the external network computes for one image. *)
Record detection := Detection { det_image : image }.

(** A [MaskRCNN] object: its mode, log directory, configuration and the
    weights file loaded into it, if any. *)
Record model := {
  m_mode : string;
  m_model_dir : string;
  m_config : gmap string pyval;
  m_weights : option string
}.

(** Calls into the external libraries, in the order they are made. *)
Inductive event :=
  | EvDisplayConfig (cfg : gmap string pyval)
  | EvBuildModel (mode : string) (model_dir : string)
  | EvLoadWeights (path : string)
  | EvLoadDataset (root split : string)
  | EvImread (path : string)
  | EvDetect (weights : option string) (images : list image)
  | EvVisualize (img : image) (r : detection).

(** What the notebook reads from outside. *)
Record world := {
  w_root : string;                                 (* os.path.abspath("../../") *)
  w_exists : string -> bool;                       (* os.path.exists *)
  w_listdir : string -> option (list string);      (* next(os.walk(d))[2]; None: the walk yields nothing *)
  w_index : string -> string -> option (list string); (* image paths listed in the index file of a split *)
  w_config_defaults : gmap string pyval;           (* attributes of YCBVideoConfigInference() *)
  w_environ : gmap string string;                  (* os.environ at start *)
  w_randint : Z -> Z -> Z;                         (* random.randint(a, b) *)
  w_choice : nat -> nat                            (* random index drawn by random.choice *)
}.

Record nb_state := { environ : gmap string string; trace : list event }.

Definition M (A : Type) := nb_state -> outcome A * nb_state.

#[export] Instance M_ret : MRet M := λ A x s, (Ok x, s).
#[export] Instance M_bind : MBind M := λ A B f m s,
  match m s with
  | (Ok x, s') => f x s'
  | (Raise e, s') => (Raise e, s')
  end.

Definition raise {A} (e : exc) : M A := λ s, (Raise e, s).
Definition lift {A} (o : outcome A) : M A := λ s, (o, s).
Definition emit (e : event) : M unit :=
  λ s, (Ok (), {| environ := environ s; trace := trace s ++ [e] |}).

(** [assert b] *)
Definition py_assert (b : bool) : M unit :=
  if b then mret () else raise AssertionError.

(** [os.environ[k] = v]: only strings can be stored. *)
Definition environ_setitem (k : string) (v : pyval) : M unit :=
  match v with
  | PyStr s => λ st, (Ok (), {| environ := <[k:=s]> (environ st); trace := trace st |})
  | _ => raise TypeError
  end.

(** Modelled from the spec: the configuration classes of configurations.py
    (not among the sources) are plain value containers of named
    hyperparameters, so an instance is its attribute dictionary. *)
Definition config_getattr (c : gmap string pyval) (k : string) : outcome pyval :=
  match c !! k with
  | Some v => Ok v
  | None => Raise (AttributeError k)
  end.

Definition config_setattr (c : gmap string pyval) (k : string) (v : pyval)
  : gmap string pyval := <[k:=v]> c.

Section Demo.
Variable w : world.

Definition ROOT_DIR : string := w_root w.
Definition MODEL_DIR : string := path_join ROOT_DIR "logs".
Definition TRAINED_MODEL_PATH : string :=
  path_join (path_join MODEL_DIR "bottles/bottles_exp_4") "mask_rcnn_bottles_0040.h5".
Definition IMAGE_DIR : string := path_join ROOT_DIR "images".
Definition dataset_root_dir : string :=
  path_join (path_join ROOT_DIR "datasets") "bottles".

(** [random.randint(a, b)]. *)
Definition randint (a b : Z) : M Z := mret (w_randint w a b).

(** [random.choice(seq)]. *)
Definition choice {A} (seq : list A) : M A :=
  match seq with
  | [] => raise IndexError
  | _ => lift (py_index seq (Z.of_nat (w_choice w (length seq))))
  end.

(** [next(os.walk(d))[2]]. *)
Definition walk_files (d : string) : M (list string) :=
  match w_listdir w d with
  | Some fs => mret fs
  | None => raise StopIteration
  end.

(** [skimage.io.imread(path)]. *)
Definition imread (path : string) : M image :=
  if w_exists w path then _ ← emit (EvImread path); mret (Image path)
  else raise FileNotFoundError.

(** [modellib.MaskRCNN(mode=..., model_dir=..., config=...)]. *)
Definition MaskRCNN (mode model_dir : string) (config : gmap string pyval) : M model :=
  _ ← emit (EvBuildModel mode model_dir);
  mret {| m_mode := mode; m_model_dir := model_dir; m_config := config;
          m_weights := None |}.

(** [model.load_weights(path, by_name=True)], which updates [model]. *)
Definition load_weights (m : model) (path : string) : M model :=
  if w_exists w path then
    _ ← emit (EvLoadWeights path);
    mret {| m_mode := m_mode m; m_model_dir := m_model_dir m;
            m_config := m_config m; m_weights := Some path |}
  else raise OSError.

(** [model.detect(images, verbose=1)]: one result per image. *)
Definition detect (m : model) (images : list image) : M (list detection) :=
  _ ← emit (EvDetect (m_weights m) images);
  mret (map Detection images).

(** [visualize.display_instances(image, r['rois'], r['masks'],
    r['class_ids'], dataset_val.class_names, r['scores'])]; the class names
    are not modelled. *)
Definition display_instances (img : image) (r : detection) : M unit :=
  emit (EvVisualize img r).

(** Modelled from the spec: [YCBVideoDataset().load_dataset(root, split)]
    (datasets.py is not among the sources) reads the index file of the
    split and populates [image_info] with one record per listed image. *)
Definition load_dataset (root split : string) : M dataset :=
  match w_index w root split with
  | None => raise FileNotFoundError
  | Some paths =>
      _ ← emit (EvLoadDataset root split);
      mret {| image_info := map (λ p, {| info_path := p |}) paths |}
  end.

(** The notebook, cells run top to bottom; an exception stops the run. *)
Definition demo : M unit :=
  (* cell 1 *)
  _ ← py_assert (w_exists w TRAINED_MODEL_PATH);
  (* cell 2 *)
  let config := w_config_defaults w in
  let config := config_setattr config "DETECTION_MIN_CONFIDENCE" (PyFloat 8 (-1)) in
  _ ← emit (EvDisplayConfig config);
  _ ← environ_setitem "CUDA_DEVICE_ORDER" (PyStr "PCI_BUS_ID");
  gpu ← lift (config_getattr config "GPU_ID");
  _ ← environ_setitem "CUDA_VISIBLE_DEVICES" gpu;
  (* cell 3 *)
  model ← MaskRCNN "inference" MODEL_DIR config;
  model ← load_weights model TRAINED_MODEL_PATH;
  (* cell 4 *)
  dataset_val ← load_dataset dataset_root_dir "val";
  (* cell 5 *)
  k ← randint 0 (Z.of_nat (length (image_info dataset_val)));
  random_val_img_info ← lift (py_index (image_info dataset_val) k);
  image ← imread (info_path random_val_img_info);
  (* cell 6 *)
  file_names ← walk_files IMAGE_DIR;
  f ← choice file_names;
  image ← imread (path_join IMAGE_DIR f);
  (* cell 7; the timing and the print are left out *)
  results ← detect model [image];
  r ← lift (py_index results 0);
  display_instances image r.

End Demo.

Definition run_demo (w : world) : outcome unit * nb_state :=
  demo w {| environ := w_environ w; trace := [] |}.

(** Calls made by a run that completes: the model is built, the weights
    are loaded, the validation set is indexed, two images are read, the
    second is detected on, and the detections are drawn. *)
Definition demo_calls (w : world) (cfg : gmap string pyval) (p q : string)
    (r : detection) : list event :=
  [EvDisplayConfig cfg; EvBuildModel "inference" (MODEL_DIR w);
   EvLoadWeights (TRAINED_MODEL_PATH w); EvLoadDataset (dataset_root_dir w) "val";
   EvImread p; EvImread q;
   EvDetect (Some (TRAINED_MODEL_PATH w)) [Image q];
   EvVisualize (Image q) r].

(** [random.randint(a, b)] returns an integer [N] with [a <= N <= b]. *)
Definition randint_result (a b n : Z) : Prop := (a <= n <= b)%Z.

(** A checkout where every file exists, the validation index lists one
    image and the images folder holds one file. *)
Definition w_ok : world := {|
  w_root := "/repo";
  w_exists := λ _, true;
  w_listdir := λ _, Some ["a.jpg"];
  w_index := λ _ _, Some ["/data/val/000001.png"];
  w_config_defaults := <["GPU_ID" := PyStr "0"]> ∅;
  w_environ := ∅;
  w_randint := λ a _, a;
  w_choice := λ _, 0%nat |}.

(** The same checkout where [random.randint(a, b)] draws [b]. *)
Definition w_randint_top : world := {|
  w_root := "/repo";
  w_exists := λ _, true;
  w_listdir := λ _, Some ["a.jpg"];
  w_index := λ _ _, Some ["/data/val/000001.png"];
  w_config_defaults := <["GPU_ID" := PyStr "0"]> ∅;
  w_environ := ∅;
  w_randint := λ _ b, b;
  w_choice := λ _, 0%nat |}.

(** A checkout without the trained weights. *)
Definition w_no_weights : world := {|
  w_root := "/repo";
  w_exists := λ p, negb (String.eqb p "/repo/logs/bottles/bottles_exp_4/mask_rcnn_bottles_0040.h5");
  w_listdir := λ _, Some ["a.jpg"];
  w_index := λ _ _, Some ["/data/val/000001.png"];
  w_config_defaults := <["GPU_ID" := PyStr "0"]> ∅;
  w_environ := ∅;
  w_randint := λ a _, a;
  w_choice := λ _, 0%nat |}.

(** A checkout whose configuration has no GPU_ID. *)
Definition w_no_gpu : world := {|
  w_root := "/repo";
  w_exists := λ _, true;
  w_listdir := λ _, Some ["a.jpg"];
  w_index := λ _ _, Some ["/data/val/000001.png"];
  w_config_defaults := ∅;
  w_environ := ∅;
  w_randint := λ a _, a;
  w_choice := λ _, 0%nat |}.

(** A checkout whose validation index lists no image. *)
Definition w_empty_val : world := {|
  w_root := "/repo";
  w_exists := λ _, true;
  w_listdir := λ _, Some ["a.jpg"];
  w_index := λ _ _, Some [];
  w_config_defaults := <["GPU_ID" := PyStr "0"]> ∅;
  w_environ := ∅;
  w_randint := λ a _, a;
  w_choice := λ _, 0%nat |}.

(** A checkout without an images folder. *)
Definition w_no_images : world := {|
  w_root := "/repo";
  w_exists := λ _, true;
  w_listdir := λ _, None;
  w_index := λ _ _, Some ["/data/val/000001.png"];
  w_config_defaults := <["GPU_ID" := PyStr "0"]> ∅;
  w_environ := ∅;
  w_randint := λ a _, a;
  w_choice := λ _, 0%nat |}.

End Notebook.

(** ** The command line of samples/tabletop/tabletop.py *)
Module TabletopCLI.

(** Modelled from the spec: the argument parser of tabletop.py (the script
    is not among the sources; the spec and the README give its usage line
    [tabletop.py [-h] [--dataset PATH] --weights PATH_OR_"coco" [--logs PATH]
    [--image PATH] [--video PATH] <train|splash|evaluate>], with logs/ as
    the default of --logs).  Options take their value from the next token,
    a repeated option keeps its last value, and a token that starts with a
    dash is never taken as a value. *)
Inductive command := Train | Splash | Evaluate.

Definition command_of_string (s : string) : option command :=
  if String.eqb s "train" then Some Train
  else if String.eqb s "splash" then Some Splash
  else if String.eqb s "evaluate" then Some Evaluate
  else None.

Definition command_name (c : command) : string :=
  match c with Train => "train" | Splash => "splash" | Evaluate => "evaluate" end.

Record args := {
  command_ : command;
  dataset : option string;
  weights : string;
  logs : string;
  image : option string;
  video : option string
}.

Inductive parse_result := Parsed (a : args) | Help | UsageError.

Definition option_strings : list string :=
  ["--dataset"; "--weights"; "--logs"; "--image"; "--video"].

Definition option_like (s : string) : bool :=
  match s with String "-" (String _ _) => true | _ => false end.

Inductive scanned :=
  | ScanOk (opts : list (string * string)) (positionals : list string)
  | ScanHelp
  | ScanError.

Fixpoint scan (toks : list string) : scanned :=
  match toks with
  | [] => ScanOk [] []
  | t :: rest =>
      if String.eqb t "-h" || String.eqb t "--help" then ScanHelp
      else if option_like t then
        if bool_decide (t ∈ option_strings) then
          match rest with
          | v :: rest' =>
              if option_like v then ScanError
              else match scan rest' with
                   | ScanOk o p => ScanOk ((t, v) :: o) p
                   | r => r
                   end
          | [] => ScanError
          end
        else ScanError
      else match scan rest with
           | ScanOk o p => ScanOk o (t :: p)
           | r => r
           end
  end.

(** The value of an option: the last one given. *)
Definition opt_value (o : list (string * string)) (k : string) : option string :=
  last (map snd (filter (λ kv, kv.1 = k) o)).

Definition DEFAULT_LOGS_DIR : string := "logs/".

Definition parse (toks : list string) : parse_result :=
  match scan toks with
  | ScanHelp => Help
  | ScanError => UsageError
  | ScanOk o pos =>
      match pos, opt_value o "--weights" with
      | [c], Some wt =>
          match command_of_string c with
          | Some cmd =>
              Parsed {| command_ := cmd;
                        dataset := opt_value o "--dataset";
                        weights := wt;
                        logs := default DEFAULT_LOGS_DIR (opt_value o "--logs");
                        image := opt_value o "--image";
                        video := opt_value o "--video" |}
          | None => UsageError
          end
      | _, _ => UsageError
      end
  end.

(** Modelled from the spec: the dispatch of tabletop.py on the command,
    one call on the external model per command; splash reads its input from
    --image, else from --video, and draws the detections over it. *)
Inductive source := SrcImage (path : string) | SrcVideo (path : string).

Inductive call :=
  | ModelTrain (weights : string) (dataset : option string) (logs : string)
  | ModelDetect (src : source)
  | Overlay (src : source)
  | ModelEvaluate (weights : string) (dataset : option string).

Definition splash_source (a : args) : option source :=
  match image a, video a with
  | Some i, _ => Some (SrcImage i)
  | None, Some v => Some (SrcVideo v)
  | None, None => None
  end.

(** [None]: the run stops without calling the model. *)
Definition dispatch (a : args) : option (list call) :=
  match command_ a with
  | Train => Some [ModelTrain (weights a) (dataset a) (logs a)]
  | Splash =>
      match splash_source a with
      | Some src => Some [ModelDetect src; Overlay src]
      | None => None
      end
  | Evaluate => Some [ModelEvaluate (weights a) (dataset a)]
  end.

Definition main (toks : list string) : option (list call) :=
  match parse toks with
  | Parsed a => dispatch a
  | Help => Some []
  | UsageError => None
  end.

(** The tokens of an optional argument, when it is given. *)
Definition opt_tokens (flag : string) (v : option string) : list string :=
  match v with Some x => [flag; x] | None => [] end.

(** The splash example of the README, with an image. *)
Definition splash_image_args : args := {|
  command_ := Splash; dataset := Some "/data/YCB_Video"; weights := "mask_rcnn_tabletop.h5";
  logs := DEFAULT_LOGS_DIR; image := Some "/data/frame.png"; video := None |}.

End TabletopCLI.

(** ** Facts about the notebook *)
Module NotebookFacts.
Import Notebook.

#[local] Arguments ROOT_DIR : simpl never.
#[local] Arguments MODEL_DIR : simpl never.
#[local] Arguments TRAINED_MODEL_PATH : simpl never.
#[local] Arguments IMAGE_DIR : simpl never.
#[local] Arguments dataset_root_dir : simpl never.

Lemma py_index_elem {A} (xs : list A) (i : Z) (x : A) :
  py_index xs i = Ok x → x ∈ xs.
Proof.
  unfold py_index; cbv zeta; intros H.
  repeat case_match; simplify_eq; by eapply list_elem_of_lookup_2.
Qed.

Lemma py_index_length {A} (xs : list A) :
  py_index xs (Z.of_nat (length xs)) = Raise IndexError.
Proof.
  unfold py_index; cbv zeta.
  rewrite (proj2 (Z.ltb_ge _ _)) by lia.
  by rewrite (proj2 (Z.ltb_ge _ _)), andb_false_r by lia.
Qed.

Lemma bind_inv {A B} (m : M A) (f : A → M B) s o s'' :
  (m ≫= f) s = (o, s'') →
  (∃ e, m s = (Raise e, s'') ∧ o = Raise e) ∨
  (∃ x s', m s = (Ok x, s') ∧ f x s' = (o, s'')).
Proof.
  unfold mbind, M_bind.
  destruct (m s) as [[x|e] s'] eqn:E; intros; simplify_eq; eauto.
Qed.

Ltac prim_simpl :=
  unfold py_assert, emit, environ_setitem, lift, raise, randint, choice,
    walk_files, imread, MaskRCNN, load_weights, detect, display_instances,
    load_dataset, mbind, M_bind, mret, M_ret in *;
  cbn -[config_setattr config_getattr py_index path_join TRAINED_MODEL_PATH
        MODEL_DIR IMAGE_DIR dataset_root_dir demo_calls] in *.

Ltac prim_inv := prim_simpl; repeat (case_match; prim_simpl); simplify_eq.

(** Cells run one after the other: whatever cell raises, the calls made so
    far are a prefix of [demo_calls]. *)
Lemma run_demo_prefix (w : world) :
  ∃ cfg p q r, trace (snd (run_demo w)) `prefix_of` demo_calls w cfg p q r.
Proof.
  destruct (run_demo w) as [o s] eqn:H; cbn.
  unfold run_demo, demo in H.
  repeat (apply bind_inv in H as [(e & Hm & ->) | (? & ? & Hm & H)]; prim_inv).
  all: try prim_inv.
  all: eexists _, _, _, _; eexists; reflexivity.
  Unshelve. all: first [exact ∅ | exact "" | exact (Detection (Image ""))].
Qed.

(** A run that completes makes every call of [demo_calls]; the second
    image read is a file of the images folder, the first one an image of
    the validation index. *)
Lemma run_demo_ok (w : world) (s : nb_state) :
  run_demo w = (Ok (), s) →
  ∃ cfg p f r fs l,
    trace s = demo_calls w cfg p (path_join (IMAGE_DIR w) f) r ∧
    w_listdir w (IMAGE_DIR w) = Some fs ∧ f ∈ fs ∧
    w_index w (dataset_root_dir w) "val" = Some l ∧ p ∈ l.
Proof.
  unfold run_demo, demo; intros H.
  repeat (apply bind_inv in H as [(e & Hm & ?) | (? & ? & Hm & H)]; prim_inv).
  all: try prim_inv.
  match goal with
  | Hc : py_index (_ :: _) (Z.of_nat (w_choice _ _)) = Ok _ |- _ =>
      apply py_index_elem in Hc
  end.
  match goal with
  | Hv : py_index (map _ _) _ = Ok _ |- _ =>
      apply py_index_elem, list_elem_of_fmap in Hv as (p & -> & Hp)
  end.
  do 6 eexists; repeat split; eauto.
Qed.

(** C2: run top to bottom, the notebook builds the model in inference
    mode, loads the trained weights, loads an image, runs detection on it
    and draws the results, in this order: every run, also one stopped by an
    exception, makes a prefix of these calls, detection is only ever called
    after the weights were loaded (and on the model holding them), and a
    completed run makes all of them. *)
Theorem demo_call_order (w : world) :
  (∃ cfg p q r, trace (snd (run_demo w)) `prefix_of` demo_calls w cfg p q r) ∧
  (∀ pre ws imgs post,
     trace (snd (run_demo w)) = pre ++ EvDetect ws imgs :: post →
     EvBuildModel "inference" (MODEL_DIR w) ∈ pre ∧
     EvLoadWeights (TRAINED_MODEL_PATH w) ∈ pre ∧
     ws = Some (TRAINED_MODEL_PATH w)) ∧
  (fst (run_demo w) = Ok () →
     ∃ cfg p q r, trace (snd (run_demo w)) = demo_calls w cfg p q r).
Proof.
  destruct (run_demo_prefix w) as (cfg & p & q & r & Hpre).
  split; [by exists cfg, p, q, r|split].
  destruct Hpre as [k Hk].
  - intros pre ws imgs post Ht.
    rewrite Ht, <-app_assoc in Hk; unfold demo_calls in Hk.
    do 6 (destruct pre as [|? pre]; cbn in Hk; [discriminate | injection Hk as <- Hk]).
    destruct pre as [|? pre]; cbn in Hk.
    + injection Hk as -> _ _. split_and!; [set_solver|set_solver|done].
    + injection Hk as _ Hk. destruct pre as [|? [|? pre]]; cbn in Hk; simplify_eq.
  - intros Hok. destruct (run_demo w) as [o s] eqn:E; cbn in *; subst.
    apply run_demo_ok in E as (cfg' & p' & f & r' & _ & _ & -> & _). eauto.
Qed.

(** C3: when the trained weights file is missing, the assertion of the
    first cell raises [AssertionError]; nothing catches it, so the run ends
    there, before the model is built: no call has been made and
    [os.environ] is untouched. *)
Theorem demo_missing_weights (w : world) :
  w_exists w (TRAINED_MODEL_PATH w) = false →
  run_demo w = (Raise AssertionError, {| environ := w_environ w; trace := [] |}).
Proof.
  intros H. unfold run_demo, demo, mbind at 1, M_bind at 1, py_assert.
  by rewrite H.
Qed.

Lemma demo_missing_weights_witness :
  w_exists w_no_weights (TRAINED_MODEL_PATH w_no_weights) = false ∧
  run_demo w_no_weights =
    (Raise AssertionError, {| environ := w_environ w_no_weights; trace := [] |}).
Proof.
  split; [vm_compute; reflexivity|].
  apply demo_missing_weights. vm_compute. reflexivity.
Defined.

(** C4: [random.randint(0, len(dataset_val.image_info))] may draw
    [len(dataset_val.image_info)] itself, and indexing [image_info] there
    raises [IndexError]: with one validation image and the draw [1] the
    notebook stops in cell 5. *)
Theorem demo_val_index_out_of_range :
  randint_result 0 1 (w_randint w_randint_top 0 1) ∧
  length (default [] (w_index w_randint_top (dataset_root_dir w_randint_top) "val")) = 1%nat ∧
  fst (run_demo w_randint_top) = Raise IndexError.
Proof.
  split_and!; [unfold randint_result; simpl; lia | vm_compute; reflexivity | vm_compute; reflexivity].
Qed.

(** C6: setting [DETECTION_MIN_CONFIDENCE] on the configuration changes
    that attribute and leaves every other one, [GPU_ID] among them, as it
    was. *)
Theorem config_setattr_frame (c : gmap string pyval) (k : string) :
  config_getattr (config_setattr c "DETECTION_MIN_CONFIDENCE" (PyFloat 8 (-1))) k =
  if String.eqb k "DETECTION_MIN_CONFIDENCE" then Ok (PyFloat 8 (-1))
  else config_getattr c k.
Proof.
  unfold config_getattr, config_setattr.
  destruct (String.eqb_spec k "DETECTION_MIN_CONFIDENCE") as [->|Hne].
  - by rewrite lookup_insert_eq.
  - by rewrite lookup_insert_ne.
Qed.

(** C7: in a completed run the image given to [model.detect] and drawn by
    [display_instances] is the one read from the images folder in cell 6;
    the validation image read in cell 5 is overwritten before detection. *)
Theorem demo_detects_folder_image (w : world) (s : nb_state) :
  run_demo w = (Ok (), s) →
  ∃ p_val f fs l,
    w_index w (dataset_root_dir w) "val" = Some l ∧ p_val ∈ l ∧
    EvImread p_val ∈ trace s ∧
    w_listdir w (IMAGE_DIR w) = Some fs ∧ f ∈ fs ∧
    (∀ ws imgs, EvDetect ws imgs ∈ trace s →
       imgs = [Image (path_join (IMAGE_DIR w) f)]) ∧
    (∀ img r, EvVisualize img r ∈ trace s →
       img = Image (path_join (IMAGE_DIR w) f)).
Proof.
  intros H.
  apply run_demo_ok in H as (cfg & p & f & r & fs & l & Ht & Hfs & Hf & Hl & Hp).
  exists p, f, fs, l. rewrite Ht. unfold demo_calls.
  split_and!; try done.
  - set_solver.
  - intros ws imgs Hin.
    repeat rewrite elem_of_cons in Hin; rewrite elem_of_nil in Hin.
    naive_solver.
  - intros img r' Hin.
    repeat rewrite elem_of_cons in Hin; rewrite elem_of_nil in Hin.
    naive_solver.
Qed.

Lemma demo_detects_folder_image_witness :
  ∃ s, run_demo w_ok = (Ok (), s) ∧
  ∃ p_val f fs l,
    w_index w_ok (dataset_root_dir w_ok) "val" = Some l ∧ p_val ∈ l ∧
    EvImread p_val ∈ trace s ∧
    w_listdir w_ok (IMAGE_DIR w_ok) = Some fs ∧ f ∈ fs ∧
    (∀ ws imgs, EvDetect ws imgs ∈ trace s →
       imgs = [Image (path_join (IMAGE_DIR w_ok) f)]) ∧
    (∀ img r, EvVisualize img r ∈ trace s →
       img = Image (path_join (IMAGE_DIR w_ok) f)).
Proof.
  exists (snd (run_demo w_ok)).
  assert (H : run_demo w_ok = (Ok (), snd (run_demo w_ok))) by (vm_compute; reflexivity).
  split; [exact H|].
  exact (demo_detects_folder_image w_ok _ H).
Defined.

End NotebookFacts.

(** ** Facts about the command line *)
Module TabletopCLIFacts.
Import TabletopCLI.

Lemma command_of_string_name (s : string) (c : command) :
  command_of_string s = Some c → s = command_name c.
Proof.
  unfold command_of_string.
  destruct (String.eqb_spec s "train"); [intros [= <-]; done|].
  destruct (String.eqb_spec s "splash"); [intros [= <-]; done|].
  destruct (String.eqb_spec s "evaluate"); [intros [= <-]; done|].
  done.
Qed.

Lemma opt_value_elem (o : list (string * string)) (k v : string) :
  opt_value o k = Some v → (k, v) ∈ o.
Proof.
  unfold opt_value. intros H%last_Some_elem_of.
  induction o as [|[k' v'] o IH]; cbn in *; [set_solver|].
  case_decide; cbn in *; subst.
  - apply elem_of_cons in H as [->|H]; [left|right; auto].
  - right; auto.
Qed.

Lemma scan_opts_in (n : nat) (toks : list string) o pos k v :
  length toks ≤ n → scan toks = ScanOk o pos → (k, v) ∈ o → k ∈ toks.
Proof.
  revert toks o pos. induction n as [|n IH]; intros toks o pos Hlen Hs Hin.
  - destruct toks; cbn in *; [simplify_eq; set_solver | lia].
  - destruct toks as [|t rest]; cbn in Hs; [simplify_eq; set_solver|].
    repeat case_match; simplify_eq.
    + apply elem_of_cons in Hin as [[= -> ->]|Hin]; [set_solver|].
      cbn in Hlen.
      match goal with Hr : scan ?r = ScanOk _ _ |- _ =>
        assert (k ∈ r) by (eapply IH; [lia|exact Hr|exact Hin]) end.
      set_solver.
    + cbn in Hlen.
      match goal with Hr : scan ?r = ScanOk _ _ |- _ =>
        assert (k ∈ r) by (eapply IH; [lia|exact Hr|exact Hin]) end.
      set_solver.
Qed.

(** C1: the command line takes exactly one positional command, one of
    train, splash and evaluate, and a required --weights; --dataset,
    --logs, --image and --video may each be given or left out, and --logs
    defaults to logs/. *)
Theorem tabletop_cli_surface :
  (∀ toks a, parse toks = Parsed a →
     ∃ o c, scan toks = ScanOk o [c] ∧
       c ∈ ["train"; "splash"; "evaluate"] ∧ c = command_name (command_ a) ∧
       opt_value o "--weights" = Some (weights a) ∧
       dataset a = opt_value o "--dataset" ∧
       logs a = default "logs/" (opt_value o "--logs") ∧
       image a = opt_value o "--image" ∧ video a = opt_value o "--video") ∧
  (∀ toks o pos, scan toks = ScanOk o pos → length pos ≠ 1%nat →
     parse toks = UsageError) ∧
  (∀ toks a, "--weights" ∉ toks → parse toks ≠ Parsed a) ∧
  (∀ cmd wt d l i v,
     option_like wt = false →
     (∀ x, x ∈ [d; l; i; v] → from_option option_like false x = false) →
     parse (opt_tokens "--dataset" d ++ ["--weights"; wt] ++ opt_tokens "--logs" l ++
            opt_tokens "--image" i ++ opt_tokens "--video" v ++ [command_name cmd]) =
     Parsed {| command_ := cmd; dataset := d; weights := wt;
               logs := default "logs/" l; image := i; video := v |}).
Proof.
  split_and!.
  - intros toks a. unfold parse.
    destruct (scan toks) as [o pos| |] eqn:Hs; try done.
    destruct pos as [|c [|]]; try done.
    destruct (opt_value o "--weights") as [wt|] eqn:Hw; [|done].
    destruct (command_of_string c) as [cmd|] eqn:Hc; [|done].
    intros [= <-]. cbn.
    apply command_of_string_name in Hc as ->.
    exists o, (command_name cmd). split_and!; try done.
    destruct cmd; set_solver.
  - intros toks o pos Hs Hlen. unfold parse. rewrite Hs.
    destruct pos as [|c [|]]; cbn in Hlen; try lia; by destruct (opt_value o "--weights").
  - intros toks a Hnot. unfold parse.
    destruct (scan toks) as [o pos| |] eqn:Hs; try done.
    destruct pos as [|c [|]]; try done.
    destruct (opt_value o "--weights") as [wt|] eqn:Hw; [|done].
    apply opt_value_elem in Hw.
    pose proof (scan_opts_in (length toks) toks o [c] _ _ (le_n _) Hs Hw).
    done.
  - intros cmd wt d l i v Hwt Hv.
    assert (Hd : from_option option_like false d = false) by (apply Hv; set_solver).
    assert (Hl : from_option option_like false l = false) by (apply Hv; set_solver).
    assert (Hi : from_option option_like false i = false) by (apply Hv; set_solver).
    assert (Hvv : from_option option_like false v = false) by (apply Hv; set_solver).
    destruct d, l, i, v; cbn in Hd, Hl, Hi, Hvv; destruct cmd;
      unfold parse; cbn; rewrite ?Hwt, ?Hd, ?Hl, ?Hi, ?Hvv; reflexivity.
Qed.

(** C8: after parsing, the command line dispatches on the command: train
    calls the model's training, evaluate its evaluation, splash its
    detection (whose results it draws); nothing else is called. *)
Theorem tabletop_dispatch :
  (∀ toks calls, main toks = Some calls →
     calls = [] ∨ ∃ a, parse toks = Parsed a ∧ dispatch a = Some calls) ∧
  (∀ a, command_ a = Train →
     dispatch a = Some [ModelTrain (weights a) (dataset a) (logs a)]) ∧
  (∀ a, command_ a = Evaluate →
     dispatch a = Some [ModelEvaluate (weights a) (dataset a)]) ∧
  (∀ a calls, command_ a = Splash → dispatch a = Some calls →
     ∃ src, calls = [ModelDetect src; Overlay src]).
Proof.
  split_and!.
  - intros toks calls. unfold main.
    destruct (parse toks) as [a| |]; intros H; simplify_eq; eauto.
  - intros a Ha. unfold dispatch. by rewrite Ha.
  - intros a Ha. unfold dispatch. by rewrite Ha.
  - intros a calls Ha. unfold dispatch. rewrite Ha.
    destruct (splash_source a); intros; simplify_eq; eauto.
Qed.

(** C9: splash takes its input from --image or, without it, from --video,
    runs detection on it and draws the detections over it. *)
Theorem tabletop_splash_input (a : args) (calls : list call) :
  command_ a = Splash → dispatch a = Some calls →
  ∃ src, calls = [ModelDetect src; Overlay src] ∧
    ((∃ i, image a = Some i ∧ src = SrcImage i) ∨
     (image a = None ∧ ∃ v, video a = Some v ∧ src = SrcVideo v)).
Proof.
  intros Ha. unfold dispatch, splash_source. rewrite Ha.
  destruct (image a) as [i|], (video a) as [v|]; intros; simplify_eq; eauto 10.
Qed.

Lemma tabletop_splash_input_witness :
  command_ splash_image_args = Splash ∧
  dispatch splash_image_args =
    Some [ModelDetect (SrcImage "/data/frame.png"); Overlay (SrcImage "/data/frame.png")] ∧
  ∃ src, [ModelDetect (SrcImage "/data/frame.png"); Overlay (SrcImage "/data/frame.png")] =
           [ModelDetect src; Overlay src] ∧
    ((∃ i, image splash_image_args = Some i ∧ src = SrcImage i) ∨
     (image splash_image_args = None ∧ ∃ v, video splash_image_args = Some v ∧ src = SrcVideo v)).
Proof.
  split_and!; [reflexivity|reflexivity|].
  apply tabletop_splash_input; reflexivity.
Defined.

End TabletopCLIFacts.

(** ** Further facts about the notebook *)
Module NotebookExtra.
Import Notebook NotebookFacts.

#[local] Arguments ROOT_DIR : simpl never.
#[local] Arguments MODEL_DIR : simpl never.
#[local] Arguments TRAINED_MODEL_PATH : simpl never.
#[local] Arguments IMAGE_DIR : simpl never.
#[local] Arguments dataset_root_dir : simpl never.

(** *** Paths *)

Lemma string_app_assoc (x y z : string) :
  String.append (String.append x y) z = String.append x (String.append y z).
Proof. induction x as [|c x IH]; [done|exact (f_equal (String c) IH)]. Qed.

Lemma string_app_length (x y : string) :
  String.length (x +:+ y) = (String.length x + String.length y)%nat.
Proof. induction x as [|c x IH]; [done|exact (f_equal S IH)]. Qed.

Lemma string_get_last_app (x s : string) :
  s ≠ "" →
  String.get (String.length (x +:+ s) - 1) (x +:+ s) =
  String.get (String.length s - 1) s.
Proof.
  intros Hs. induction x as [|c x IH]; [done|].
  change (String.get (S (String.length (x +:+ s)) - 1) (String c (x +:+ s)) =
          String.get (String.length s - 1) s).
  rewrite <-IH.
  assert (Hlen : String.length (x +:+ s) ≠ 0%nat).
  { rewrite string_app_length. destruct s; [done|cbn; lia]. }
  destruct (String.length (x +:+ s)) as [|n]; [done|].
  replace (S (S n) - 1)%nat with (S n) by lia.
  replace (S n - 1)%nat with n by lia.
  reflexivity.
Qed.

(** [os.path.join] puts a separator between a directory whose last
    character is not a slash and a relative name. *)
Lemma path_join_sep (y s b : string) (c : ascii) :
  s ≠ "" → String.get (String.length s - 1) s = Some c → c ≠ "/"%char →
  match b with String "/" _ => False | _ => True end →
  path_join (y +:+ s) b = (y +:+ s) +:+ "/" +:+ b.
Proof.
  intros Hs Hc Hnc Hb. unfold path_join.
  assert (Hne : String.eqb (y +:+ s) "" = false).
  { apply String.eqb_neq. intros E. apply (f_equal String.length) in E.
    rewrite string_app_length in E. destruct s; [done|cbn in E; lia]. }
  assert (Hget : String.get (String.length (y +:+ s) - 1) (y +:+ s) = Some c)
    by (by rewrite string_get_last_app).
  rewrite Hne, Hget.
  destruct b as [|a b]; [|destruct a as [[] [] [] [] [] [] [] []]];
    destruct c as [[] [] [] [] [] [] [] []];
    first [reflexivity | contradiction | by exfalso; apply Hnc].
Qed.

Ltac join_rel a :=
  unfold path_join; cbn;
  destruct (String.eqb a ""); [by exists ""|];
  destruct (String.get _ _) as [[[] [] [] [] [] [] [] []]|];
    first [exists a; reflexivity
          | exists (a +:+ "/"); rewrite string_app_assoc; reflexivity].

Lemma MODEL_DIR_logs (w : world) : ∃ y, MODEL_DIR w = y +:+ "logs".
Proof. unfold MODEL_DIR. join_rel (ROOT_DIR w). Qed.

Lemma join_datasets (a : string) : ∃ y, path_join a "datasets" = y +:+ "datasets".
Proof. join_rel a. Qed.

(** X1: the trained weights are looked up at
    MODEL_DIR/bottles/bottles_exp_4/mask_rcnn_bottles_0040.h5 and the
    dataset under ROOT_DIR/datasets/bottles, whatever ROOT_DIR is: the
    joins after the first always insert one separator. *)
Theorem notebook_paths (w : world) :
  TRAINED_MODEL_PATH w =
    MODEL_DIR w +:+ "/bottles/bottles_exp_4/mask_rcnn_bottles_0040.h5" ∧
  dataset_root_dir w = path_join (ROOT_DIR w) "datasets" +:+ "/bottles".
Proof.
  split.
  - destruct (MODEL_DIR_logs w) as [y Hy].
    unfold TRAINED_MODEL_PATH. rewrite Hy.
    rewrite (path_join_sep y "logs" "bottles/bottles_exp_4" "s"); try done.
    change ("/" +:+ "bottles/bottles_exp_4") with "/bottles/bottles_exp_4".
    rewrite (path_join_sep (y +:+ "logs") "/bottles/bottles_exp_4"
               "mask_rcnn_bottles_0040.h5" "4"); try done.
    by rewrite string_app_assoc.
  - destruct (join_datasets (ROOT_DIR w)) as [y Hy].
    unfold dataset_root_dir. rewrite Hy.
    by rewrite (path_join_sep y "datasets" "bottles" "s").
Qed.

(** *** Runs *)

Lemma config_getattr_raise (c : gmap string pyval) (k : string) (e : exc) :
  config_getattr c k = Raise e → e = AttributeError k.
Proof. unfold config_getattr. case_match; congruence. Qed.

Lemma getattr_setattr_other (c : gmap string pyval) (k k' : string) (v : pyval) :
  k ≠ k' → config_getattr (config_setattr c k v) k' = config_getattr c k'.
Proof. intros Hne. unfold config_getattr, config_setattr. by rewrite lookup_insert_ne. Qed.

(** Split a run of the notebook [H : run_demo w = (o, s)] at every cell
    that can raise. *)
Ltac run_cases H :=
  unfold run_demo, demo in H;
  repeat (apply bind_inv in H as [(?e & ?Hm & ?) | (? & ? & ?Hm & H)]; prim_inv);
  try prim_inv.

(** X2: the notebook can only stop with one of these exceptions; in
    particular [model.load_weights] never fails on a missing file, since the
    first cell already asserted that the same path exists. *)
Theorem demo_exceptions (w : world) (e : exc) :
  fst (run_demo w) = Raise e →
  e ∈ [AssertionError; AttributeError "GPU_ID"; TypeError; IndexError;
       FileNotFoundError; StopIteration].
Proof.
  destruct (run_demo w) as [o s] eqn:H; cbn; intros ->.
  run_cases H.
  all: repeat match goal with Hg : config_getattr _ _ = Raise _ |- _ =>
         apply config_getattr_raise in Hg end.
  all: try congruence.
  all: repeat match goal with Hi : py_index _ _ = Raise _ |- _ =>
         unfold py_index in Hi; cbv zeta in Hi; repeat case_match; simplify_eq end.
  all: set_solver.
Qed.

(** X3: the notebook writes [os.environ] only at CUDA_DEVICE_ORDER and
    CUDA_VISIBLE_DEVICES: every other variable keeps its value, whatever
    cell the run stops in. *)
Theorem demo_environ_frame (w : world) (k : string) :
  k ≠ "CUDA_DEVICE_ORDER" → k ≠ "CUDA_VISIBLE_DEVICES" →
  environ (snd (run_demo w)) !! k = w_environ w !! k.
Proof.
  intros H1 H2.
  destruct (run_demo w) as [o s] eqn:H; cbn.
  run_cases H.
  all: cbn; by rewrite ?lookup_insert_ne by congruence.
Qed.

Lemma demo_environ_frame_witness :
  "HOME" ≠ "CUDA_DEVICE_ORDER" ∧ "HOME" ≠ "CUDA_VISIBLE_DEVICES" ∧
  environ (snd (run_demo w_ok)) !! "HOME" = w_environ w_ok !! "HOME".
Proof.
  split_and!; [discriminate|discriminate|].
  apply demo_environ_frame; discriminate.
Defined.

Lemma py_index_nonneg {A} (xs : list A) (i : Z) :
  (0 <= i)%Z →
  py_index xs i = match xs !! Z.to_nat i with Some x => Ok x | None => Raise IndexError end.
Proof.
  intros Hi. unfold py_index; cbv zeta.
  rewrite (proj2 (Z.ltb_ge _ _)) by lia.
  rewrite (proj2 (Z.leb_le _ _)) by lia; cbn.
  destruct (Z.ltb_spec i (Z.of_nat (length xs))) as [Hlt|Hge]; [done|].
  rewrite lookup_ge_None_2; [done|lia].
Qed.

Lemma lookup_map {A B} (f : A → B) (xs : list A) (n : nat) :
  map f xs !! n = f <$> xs !! n.
Proof. revert n; induction xs as [|x xs IH]; intros [|n]; cbn; auto. Qed.

Lemma py_index_map {A B} (f : A → B) (xs : list A) (i : Z) :
  py_index (map f xs) i =
  match py_index xs i with Ok x => Ok (f x) | Raise e => Raise e end.
Proof.
  unfold py_index; cbv zeta. rewrite length_map.
  case_match; [|done]. rewrite lookup_map. by destruct (xs !! _).
Qed.

(** Rewrite the lookups a run makes into lookups of the world. *)
Ltac norm_lookups w Hr :=
  repeat match goal with
  | Hg : context [config_getattr (config_setattr _ "DETECTION_MIN_CONFIDENCE" _) "GPU_ID"] |- _ =>
      rewrite getattr_setattr_other in Hg by discriminate
  | Hg : context [config_getattr _ _] |- _ => unfold config_getattr in Hg
  | Hi : context [py_index (map _ _) _] |- _ => rewrite py_index_map in Hi
  | Hi : context [length (map _ _)] |- _ => rewrite length_map in Hi
  | Hi : context [py_index _ (Z.of_nat ?n)] |- _ =>
      rewrite py_index_nonneg, Nat2Z.id in Hi by lia
  | Hi : context [py_index _ (w_randint w 0 ?b)] |- _ =>
      rewrite py_index_nonneg in Hi
        by (pose proof (Hr 0%Z b ltac:(lia)); lia)
  end.

(** X4: given the contracts of [random.randint] (a draw in [a, b]) and
    [random.choice] (an index below the length), the notebook runs to the
    end exactly when the weights file exists, the configuration's GPU_ID is
    a string, the validation index can be read, the draw is below the number
    of validation images (not equal to it) and the drawn image exists, and
    the images folder is non-empty and the chosen file exists. *)
Theorem demo_completes_iff (w : world)
  (Hr : ∀ a b, (a <= b)%Z → (a <= w_randint w a b <= b)%Z)
  (Hc : ∀ n, (0 < n)%nat → (w_choice w n < n)%nat) :
  fst (run_demo w) = Ok () ↔
  w_exists w (TRAINED_MODEL_PATH w) = true ∧
  (∃ g, w_config_defaults w !! "GPU_ID" = Some (PyStr g)) ∧
  (∃ l p, w_index w (dataset_root_dir w) "val" = Some l ∧
     (w_randint w 0 (Z.of_nat (length l)) < Z.of_nat (length l))%Z ∧
     l !! Z.to_nat (w_randint w 0 (Z.of_nat (length l))) = Some p ∧
     w_exists w p = true) ∧
  (∃ fs f, w_listdir w (IMAGE_DIR w) = Some fs ∧ fs ≠ [] ∧
     fs !! w_choice w (length fs) = Some f ∧
     w_exists w (path_join (IMAGE_DIR w) f) = true).
Proof.
  destruct (run_demo w) as [o s] eqn:H; cbn.
  run_cases H.
  all: norm_lookups w Hr; repeat case_match; simplify_eq.
  all: split; [intros Ho; try discriminate Ho
              | intros (Hex & [g Hg] & (l' & p' & Hl' & Hlt & Hp' & Hpe) &
                        (fs' & f' & Hfs' & Hne & Hf' & Hfe));
                try reflexivity; simplify_eq; try congruence].
  2-4: cbn [length info_path] in *; congruence.
  split_and!; [done | eauto | exists l1, x | exists (s0 :: l), x8];
    split_and!; try done.
  apply lookup_lt_Some in H3.
  pose proof (Hr 0%Z (Z.of_nat (length l1)) ltac:(lia)); lia.
Qed.

Lemma demo_completes_iff_witness :
  (∀ a b, (a <= b)%Z → (a <= w_randint w_ok a b <= b)%Z) ∧
  (∀ n, (0 < n)%nat → (w_choice w_ok n < n)%nat) ∧
  (fst (run_demo w_ok) = Ok () ↔
   w_exists w_ok (TRAINED_MODEL_PATH w_ok) = true ∧
   (∃ g, w_config_defaults w_ok !! "GPU_ID" = Some (PyStr g)) ∧
   (∃ l p, w_index w_ok (dataset_root_dir w_ok) "val" = Some l ∧
      (w_randint w_ok 0 (Z.of_nat (length l)) < Z.of_nat (length l))%Z ∧
      l !! Z.to_nat (w_randint w_ok 0 (Z.of_nat (length l))) = Some p ∧
      w_exists w_ok p = true) ∧
   (∃ fs f, w_listdir w_ok (IMAGE_DIR w_ok) = Some fs ∧ fs ≠ [] ∧
      fs !! w_choice w_ok (length fs) = Some f ∧
      w_exists w_ok (path_join (IMAGE_DIR w_ok) f) = true)).
Proof.
  split_and!; [cbn; lia | cbn; lia |].
  apply demo_completes_iff; cbn; lia.
Defined.

Lemma demo_exceptions_witness :
  fst (run_demo w_randint_top) = Raise IndexError ∧
  IndexError ∈ [AssertionError; AttributeError "GPU_ID"; TypeError; IndexError;
                FileNotFoundError; StopIteration].
Proof.
  split; [vm_compute; reflexivity|].
  apply (demo_exceptions w_randint_top); vm_compute; reflexivity.
Defined.

(** X5: once the weights file is there, a configuration whose GPU_ID is
    missing or not a string stops the notebook in the second cell:
    [config.GPU_ID] raises AttributeError, or [os.environ[...] = ...]
    raises TypeError. By then only the configuration has been displayed
    and CUDA_DEVICE_ORDER set; no model is built. *)
Theorem demo_gpu_id_failure (w : world) :
  w_exists w (TRAINED_MODEL_PATH w) = true →
  (∀ g, w_config_defaults w !! "GPU_ID" ≠ Some (PyStr g)) →
  run_demo w =
    (match w_config_defaults w !! "GPU_ID" with
     | None => Raise (AttributeError "GPU_ID")
     | Some _ => Raise TypeError
     end,
     {| environ := <["CUDA_DEVICE_ORDER" := "PCI_BUS_ID"]> (w_environ w);
        trace := [EvDisplayConfig (config_setattr (w_config_defaults w)
                    "DETECTION_MIN_CONFIDENCE" (PyFloat 8 (-1)))] |}).
Proof.
  intros Hex Hg.
  unfold run_demo, demo; prim_simpl. rewrite Hex; prim_simpl.
  rewrite getattr_setattr_other by discriminate.
  unfold config_getattr.
  destruct (w_config_defaults w !! "GPU_ID") as [[g| | |]|] eqn:E; prim_simpl;
    [by destruct (Hg g) | done ..].
Qed.

Lemma demo_gpu_id_failure_witness :
  w_exists w_no_gpu (TRAINED_MODEL_PATH w_no_gpu) = true ∧
  (∀ g, w_config_defaults w_no_gpu !! "GPU_ID" ≠ Some (PyStr g)) ∧
  run_demo w_no_gpu =
    (Raise (AttributeError "GPU_ID"),
     {| environ := <["CUDA_DEVICE_ORDER" := "PCI_BUS_ID"]> (w_environ w_no_gpu);
        trace := [EvDisplayConfig (config_setattr (w_config_defaults w_no_gpu)
                    "DETECTION_MIN_CONFIDENCE" (PyFloat 8 (-1)))] |}).
Proof.
  split_and!; [reflexivity | intros g; discriminate |].
  apply (demo_gpu_id_failure w_no_gpu); [reflexivity | intros g; discriminate].
Defined.

(** X6: in a run that completes, [os.environ] holds exactly what it held
    at the start, with CUDA_DEVICE_ORDER set to PCI_BUS_ID and
    CUDA_VISIBLE_DEVICES set to the configuration's GPU_ID string. *)
Theorem demo_success_environ (w : world) :
  fst (run_demo w) = Ok () →
  ∃ g, w_config_defaults w !! "GPU_ID" = Some (PyStr g) ∧
    environ (snd (run_demo w)) =
      <["CUDA_VISIBLE_DEVICES" := g]> (<["CUDA_DEVICE_ORDER" := "PCI_BUS_ID"]> (w_environ w)).
Proof.
  destruct (run_demo w) as [o s] eqn:H; cbn; intros ->.
  run_cases H.
  match goal with
  | Hg : config_getattr _ "GPU_ID" = Ok (PyStr ?g) |- _ =>
      rewrite getattr_setattr_other in Hg by discriminate;
      unfold config_getattr in Hg; case_match; simplify_eq; eauto
  end.
Qed.

Lemma demo_success_environ_witness :
  fst (run_demo w_ok) = Ok () ∧
  ∃ g, w_config_defaults w_ok !! "GPU_ID" = Some (PyStr g) ∧
    environ (snd (run_demo w_ok)) =
      <["CUDA_VISIBLE_DEVICES" := g]> (<["CUDA_DEVICE_ORDER" := "PCI_BUS_ID"]> (w_environ w_ok)).
Proof.
  split; [vm_compute; reflexivity|].
  apply demo_success_environ; vm_compute; reflexivity.
Defined.

Lemma py_index_nil {A} (i : Z) : py_index (A:=A) [] i = Raise IndexError.
Proof. unfold py_index; cbn. by repeat case_match. Qed.

(** X7: with an empty validation index, [random.randint(0, 0)] can only
    draw 0 and [dataset_val.image_info[0]] raises IndexError, whatever the
    draw: the run stops in the fifth cell after loading the dataset, before
    any image is read or detected on. *)
Theorem demo_empty_val (w : world) (g : string) :
  w_exists w (TRAINED_MODEL_PATH w) = true →
  w_config_defaults w !! "GPU_ID" = Some (PyStr g) →
  w_index w (dataset_root_dir w) "val" = Some [] →
  fst (run_demo w) = Raise IndexError ∧
  trace (snd (run_demo w)) =
    [EvDisplayConfig (config_setattr (w_config_defaults w)
       "DETECTION_MIN_CONFIDENCE" (PyFloat 8 (-1)));
     EvBuildModel "inference" (MODEL_DIR w);
     EvLoadWeights (TRAINED_MODEL_PATH w);
     EvLoadDataset (dataset_root_dir w) "val"].
Proof.
  intros Hex Hg Hidx.
  unfold run_demo, demo; prim_simpl. rewrite Hex; prim_simpl.
  rewrite getattr_setattr_other by discriminate.
  unfold config_getattr; rewrite Hg; prim_simpl.
  rewrite Hidx; prim_simpl.
  by rewrite py_index_nil.
Qed.

Lemma demo_empty_val_witness :
  w_exists w_empty_val (TRAINED_MODEL_PATH w_empty_val) = true ∧
  w_config_defaults w_empty_val !! "GPU_ID" = Some (PyStr "0") ∧
  w_index w_empty_val (dataset_root_dir w_empty_val) "val" = Some [] ∧
  fst (run_demo w_empty_val) = Raise IndexError ∧
  trace (snd (run_demo w_empty_val)) =
    [EvDisplayConfig (config_setattr (w_config_defaults w_empty_val)
       "DETECTION_MIN_CONFIDENCE" (PyFloat 8 (-1)));
     EvBuildModel "inference" (MODEL_DIR w_empty_val);
     EvLoadWeights (TRAINED_MODEL_PATH w_empty_val);
     EvLoadDataset (dataset_root_dir w_empty_val) "val"].
Proof.
  do 3 (split; [reflexivity|]).
  apply (demo_empty_val w_empty_val "0"); reflexivity.
Defined.

(** X8: when the images folder cannot be walked ([next(os.walk(...))]
    raises StopIteration) or holds no file ([random.choice] raises
    IndexError), the notebook never completes and [model.detect] is never
    called. *)
Theorem demo_no_images (w : world) :
  w_listdir w (IMAGE_DIR w) = None ∨ w_listdir w (IMAGE_DIR w) = Some [] →
  fst (run_demo w) ≠ Ok () ∧
  ∀ ws imgs, EvDetect ws imgs ∉ trace (snd (run_demo w)).
Proof.
  intros Hl.
  destruct (run_demo w) as [o s] eqn:H; cbn.
  run_cases H.
  all: try (destruct Hl; congruence).
  all: split; [discriminate|].
  all: intros ws imgs; rewrite ?elem_of_cons, elem_of_nil; intuition discriminate.
Qed.

Lemma demo_no_images_witness :
  (w_listdir w_no_images (IMAGE_DIR w_no_images) = None ∨
   w_listdir w_no_images (IMAGE_DIR w_no_images) = Some []) ∧
  fst (run_demo w_no_images) ≠ Ok () ∧
  ∀ ws imgs, EvDetect ws imgs ∉ trace (snd (run_demo w_no_images)).
Proof.
  split; [by left|].
  apply demo_no_images; by left.
Defined.

End NotebookExtra.
